(** * google_news_web_scraper.py: headline filter and keyword counts

    A shallow embedding of [src/google_news_web_scraper.py].

    - Python [str] is [string]; [keyword in title] is the substring test
      [str_in].
    - Python [int] is [Z]; [len(titles)] is [Z.of_nat (length titles)].
    - The parsed page is a tree of tags and text ([node]); [find_all],
      [find] and [text] walk it the way BeautifulSoup does.
    - A raised exception is a value: [get_title] returns [None] where the
      Python raises [AttributeError], the pipeline returns [Err e].
    - The writes of the pipeline (the spreadsheet, the chart window) are
      events appended to a trace.
    - [str.lower], [requests.get] and the HTML parser belong to the Python
      runtime and its packages; the development is parametric in them. *)

From Stdlib Require Import List String Ascii ZArith Lia Bool.
Import ListNotations.

Local Open Scope Z_scope.
Set Warnings "-register-all".

(* ------------------------------------------------------------------ *)
(** ** Python strings: the [in] operator *)

Module Str.

(** [starts_with k t]: [t] begins with [k]. *)
Fixpoint starts_with (k t : string) : bool :=
  match k, t with
  | EmptyString, _ => true
  | String _ _, EmptyString => false
  | String a k', String b t' => Ascii.eqb a b && starts_with k' t'
  end.

(** [str_in k t] is Python's [k in t] on two strings: [k] occurs in [t]
    as a contiguous run of characters, at some offset. *)
Fixpoint str_in (k t : string) : bool :=
  starts_with k t ||
  match t with
  | EmptyString => false
  | String _ t' => str_in k t'
  end.

(** The mathematical reading of [k in t]. *)
Definition substring_of (k t : string) : Prop :=
  exists pre post : string, t = String.append pre (String.append k post).

End Str.
Export Str.

(* ------------------------------------------------------------------ *)
(** ** Python dicts: insertion ordered, one entry per key *)

Module Dict.

Definition dict (V : Type) : Type := list (string * V).

(** [d[k] = v]: an existing key keeps its place and takes the new value,
    a new key goes to the end. *)
Fixpoint set {V} (k : string) (v : V) (d : dict V) : dict V :=
  match d with
  | [] => [(k, v)]
  | (k', v') :: d' =>
      if String.eqb k' k then (k', v) :: d' else (k', v') :: set k v d'
  end.

(** [d.get(k)] *)
Fixpoint get {V} (k : string) (d : dict V) : option V :=
  match d with
  | [] => None
  | (k', v') :: d' => if String.eqb k' k then Some v' else get k d'
  end.

(** [d.keys()] and [d.values()], in insertion order. *)
Definition keys {V} (d : dict V) : list string := map fst d.
Definition values {V} (d : dict V) : list V := map snd d.

(** The assignments [d[key] = f(key)], for each key of [key_list] in
    turn, on the dict [d]. *)
Definition fill {V} (f : string -> V) (key_list : list string) (d : dict V)
  : dict V :=
  fold_left (fun d key => set key (f key) d) key_list d.

(** [{key: f(key) for key in key_list}] *)
Definition comprehension {V} (f : string -> V) (key_list : list string)
  : dict V :=
  fill f key_list [].

End Dict.

(** Python's [None]. *)
Inductive NoneType : Type := PyNone.

(* ------------------------------------------------------------------ *)
(** ** The parsed document *)

(** A BeautifulSoup tree: a tag with its name and contents, or a run of
    text.  The [BeautifulSoup] object itself is the root tag. *)
Inductive node : Type :=
| Tag (name : string) (contents : list node)
| NavigableString (s : string).

(** [n.descendants]: every node below [n], in document order. *)
Fixpoint descendants (n : node) : list node :=
  match n with
  | Tag _ contents => flat_map (fun c => c :: descendants c) contents
  | NavigableString _ => []
  end.

Definition is_tag (name : string) (n : node) : bool :=
  match n with
  | Tag name' _ => String.eqb name' name
  | NavigableString _ => false
  end.

(** [n.find_all(name)] *)
Definition find_all (name : string) (n : node) : list node :=
  filter (is_tag name) (descendants n).

(** [n.find(name)]: the first match, or [None]. *)
Definition find (name : string) (n : node) : option node :=
  hd_error (find_all name n).

Definition own_string (n : node) : string :=
  match n with
  | Tag _ _ => EmptyString
  | NavigableString s => s
  end.

(** [n.text]: the strings below [n], joined in document order. *)
Definition text (n : node) : string :=
  fold_right String.append EmptyString (map own_string (descendants n)).

(** [sum(bs)] on Python booleans: [True] counts 1. *)
Definition sum (bs : list bool) : Z :=
  fold_left (fun acc (b : bool) => acc + (if b then 1 else 0)) bs 0.

(** [len(l)] *)
Definition len {A} (l : list A) : Z := Z.of_nat (List.length l).

(** What the pipeline writes. *)
Inductive event : Type :=
| ToExcel (filename : string) (columns : list string) (rows : list string)
| ShowBar (bars : list (string * Z)) (xlabel ylabel title : string).

Inductive exn : Type :=
| FetchError (msg : string)
| ParseError (msg : string).

Inductive result (A : Type) : Type :=
| Ok (a : A)
| Err (e : exn).
Arguments Ok {A} a.
Arguments Err {A} e.

(** A computation that may raise and that appends to the trace. *)
Definition M (A : Type) : Type := list event -> result A * list event.

Definition ret {A} (a : A) : M A := fun tr => (Ok a, tr).

Definition bind {A B} (c : M A) (k : A -> M B) : M B :=
  fun tr =>
    match c tr with
    | (Ok a, tr') => k a tr'
    | (Err e, tr') => (Err e, tr')
    end.

Definition lift {A} (r : result A) : M A := fun tr => (r, tr).

Definition emit (ev : event) : M unit := fun tr => (Ok tt, tr ++ [ev]).

Notation "x <- c ;; k" := (bind c (fun x => k))
  (at level 61, c at next level, right associativity).
Notation "c ;;; k" := (bind c (fun _ => k))
  (at level 61, right associativity).

(* ------------------------------------------------------------------ *)
(** ** Sample pages and collaborators, for the concrete runs *)

Module Sample.

(** [str.lower] on ASCII text. *)
Definition lower_char (c : ascii) : ascii :=
  let n := nat_of_ascii c in
  if ((65 <=? n) && (n <=? 90))%nat then ascii_of_nat (n + 32) else c.

Fixpoint lower (s : string) : string :=
  match s with
  | EmptyString => EmptyString
  | String c s' => String (lower_char c) (lower s')
  end.

(** A listing entry the way the topic page has it: a link, then the
    headline inside an [h4]. *)
Definition article (headline : string) : node :=
  Tag "article"
    [Tag "a" []; Tag "h4" [Tag "a" [NavigableString headline]];
     Tag "time" [NavigableString "2 hours ago"]].

(** An entry with no [h4] under it. *)
Definition bare_article : node :=
  Tag "article" [Tag "a" []; Tag "h3" [NavigableString "Top story"]].

Definition page (articles : list node) : node :=
  Tag "[document]"
    [Tag "html"
       [Tag "head" [Tag "title" [NavigableString "Google News"]];
        Tag "body" [Tag "main" articles]]].

Definition markup : string := "<html>...</html>".
Definition url : string := "https://news.google.com/topics/business".

Definition fetch_ok : string -> result string := fun _ => Ok markup.
Definition fetch_down : string -> result string :=
  fun _ => Err (FetchError "connection refused").
Definition parse_as (soup : node) : string -> result node :=
  fun _ => Ok soup.
Definition parse_fails : string -> result node :=
  fun _ => Err (ParseError "bad markup").

Definition one_bank : node := page [article "Bank"].
Definition two_banks : node := page [article "bank"; article "bank bank"].
Definition three_headlines : node :=
  page [article "Bank crisis today"; article "Sports update";
        article "Economy news"].
Definition five_articles : node :=
  page [article "Bank run"; article "Bank holiday"; bare_article;
        article "Central bank"; article "Bank crisis"].



End Sample.

(* ------------------------------------------------------------------ *)
(** ** The program *)

Section Scraper.

(** [str.lower] *)
Variable lower : string -> string.
(** [requests.get(url).text], or the exception the transport raises *)
Variable requests_get : string -> result string.
(** [BeautifulSoup(markup, 'html.parser')], or the parser's exception *)
Variable BeautifulSoup : string -> result node.

Definition create_empty_dict (key_list : list string)
  : Dict.dict NoneType :=
  Dict.comprehension (fun key => PyNone) key_list.

Definition contains_keywords (item_searched : string)
    (items_searched_for : list string) : bool :=
  existsb (fun keyword => str_in keyword item_searched) items_searched_for.

(** [article.find(tag).text.lower()]; [None] is the [AttributeError] that
    [.text] raises when [find] found nothing. *)
Definition get_title (article : node) (tag : string) : option string :=
  match find tag article with
  | None => None
  | Some heading => Some (lower (text heading))
  end.

Definition get_articles_soup (url : string) : M node :=
  response_text <- lift (requests_get url) ;;
  soup <- lift (BeautifulSoup response_text) ;;
  ret soup.

(** The [for] loop of [get_filtered_titles], from the articles still to
    visit and the [titles] collected so far.  [except AttributeError:
    continue] goes to the next article without the length test. *)
Fixpoint for_articles (articles : list node) (key_words : list string)
    (max_article : Z) (titles : list string) : list string :=
  match articles with
  | [] => titles
  | article :: rest =>
      match get_title article "h4" with
      | None => for_articles rest key_words max_article titles
      | Some title =>
          let titles :=
            if contains_keywords title key_words
            then titles ++ [title] else titles in
          if len titles =? max_article
          then titles
          else for_articles rest key_words max_article titles
      end
  end.

Definition get_filtered_titles (soup : node) (key_words : list string)
    (max_article : Z) : list string :=
  for_articles (find_all "article" soup) key_words max_article [].

Definition save_titles_to_excel (titles : list string) (filename : string)
  : M unit :=
  emit (ToExcel filename ["Title"%string] titles).

Definition create_bar_chart (word_count : Dict.dict Z) : M unit :=
  emit (ShowBar (combine (Dict.keys word_count) (Dict.values word_count))
          "Keywords" "Number of Articles" "Article Counts by Keyword").

Definition scrape_and_analyze (url : string) (key_words : list string)
    (max_article : Z) : M (list string * Dict.dict Z) :=
  soup <- get_articles_soup url ;;
  let titles := get_filtered_titles soup key_words max_article in
  save_titles_to_excel titles "article_titles.xlsx" ;;;
  let word_count :=
    Dict.comprehension
      (fun key => sum (map (fun title => contains_keywords title [key]) titles))
      key_words in
  create_bar_chart word_count ;;;
  ret (titles, word_count).


(** The titles of the article nodes that have a heading and contain a
    keyword, in document order, with no cap. *)
Definition matching_title (article : node) (key_words : list string)
  : list string :=
  match get_title article "h4" with
  | Some title => if contains_keywords title key_words then [title] else []
  | None => []
  end.

Definition all_matching_titles (soup : node) (key_words : list string)
  : list string :=
  flat_map (fun article => matching_title article key_words)
    (find_all "article" soup).

(** The number of [titles] that contain [key]. *)
Definition titles_containing (key : string) (titles : list string) : Z :=
  len (filter (str_in key) titles).

(** [sum(word_count.values())] *)
Definition total (counts : list Z) : Z := fold_right Z.add 0 counts.

Set Default Proof Using "Type".

(* ------------------------------------------------------------------ *)
(** ** Strings *)

Lemma starts_with_spec (k t : string) :
  starts_with k t = true <-> exists post, t = String.append k post.
Proof.
  revert t; induction k as [|a k IH]; intros t; simpl.
  - split; [intros _; now exists t | reflexivity].
  - destruct t as [|b t].
    + split; [discriminate | intros [post H]; discriminate H].
    + rewrite andb_true_iff, Ascii.eqb_eq, IH. split.
      * intros [-> [post ->]]. now exists post.
      * intros [post H]. injection H as -> ->.
        split; [reflexivity | now exists post].
Qed.

Lemma str_in_spec (k t : string) : str_in k t = true <-> substring_of k t.
Proof.
  unfold substring_of. induction t as [|b t IH].
  - simpl. rewrite orb_false_r, starts_with_spec. split.
    + intros [post H]. now exists EmptyString, post.
    + intros [[|c pre] [post H]]; [now exists post | discriminate H].
  - cbn [str_in]. rewrite orb_true_iff, IH, starts_with_spec. split.
    + intros [[post H] | [pre [post H]]].
      * now exists EmptyString, post.
      * exists (String b pre), post. simpl. now rewrite H.
    + intros [[|c pre] [post H]].
      * left. now exists post.
      * right. simpl in H. injection H as _ ->. now exists pre, post.
Qed.

Lemma contains_keywords_spec (title : string) (key_words : list string) :
  contains_keywords title key_words = true <->
  exists k, In k key_words /\ substring_of k title.
Proof.
  unfold contains_keywords. rewrite existsb_exists.
  split; intros [k [Hk H]]; exists k; split; try assumption;
    now apply str_in_spec.
Qed.

Lemma contains_keywords_single (title key : string) :
  contains_keywords title [key] = str_in key title.
Proof. unfold contains_keywords. simpl. apply orb_false_r. Qed.

(* ------------------------------------------------------------------ *)
(** ** [len] and [sum] *)

Lemma len_nil {A} : len (@nil A) = 0.
Proof. reflexivity. Qed.

Lemma len_app_one {A} (l : list A) (x : A) : len (l ++ [x]) = len l + 1.
Proof. unfold len. rewrite length_app. simpl. lia. Qed.

Lemma len_nonneg {A} (l : list A) : 0 <= len l.
Proof. unfold len. lia. Qed.

Lemma sum_from (bs : list bool) (start : Z) :
  fold_left (fun acc (b : bool) => acc + (if b then 1 else 0)) bs start
  = start + len (filter (fun b => b) bs).
Proof.
  revert start; induction bs as [|b bs IH]; intros start; simpl.
  - rewrite len_nil. lia.
  - rewrite IH. destruct b; simpl; unfold len; cbn [List.length]; lia.
Qed.

Lemma sum_contains (key : string) (titles : list string) :
  sum (map (fun title => contains_keywords title [key]) titles)
  = titles_containing key titles.
Proof.
  unfold sum, titles_containing, len. rewrite sum_from, Z.add_0_l.
  unfold len. f_equal.
  induction titles as [|t titles IH]; cbn [map filter]; [reflexivity|].
  rewrite contains_keywords_single.
  destruct (str_in key t); cbn [List.length]; now rewrite IH.
Qed.

Lemma titles_containing_bounds (key : string) (titles : list string) :
  0 <= titles_containing key titles <= len titles.
Proof.
  unfold titles_containing, len. split; [lia|].
  apply inj_le, filter_length_le.
Qed.

(* ------------------------------------------------------------------ *)
(** ** The loop of [get_filtered_titles] *)

Ltac loop_step :=
  cbn [for_articles flat_map]; unfold matching_title;
  destruct (get_title _ "h4") as [title|]; cbn [app];
  [destruct (contains_keywords title _) eqn:Hmatch|].

(** While the cap is ahead ([len titles < max_article]) the loop adds
    the matching titles one by one and stops at the cap. *)
Lemma for_articles_capped (articles : list node) (key_words : list string)
    (max_article : Z) (titles : list string) :
  len titles < max_article ->
  for_articles articles key_words max_article titles
  = titles ++ firstn (Z.to_nat (max_article - len titles))
                (flat_map (fun a => matching_title a key_words) articles).
Proof.
  revert titles; induction articles as [|a rest IH]; intros titles Hlt.
  - cbn. now rewrite firstn_nil, app_nil_r.
  - loop_step.
    + rewrite len_app_one.
      replace (Z.to_nat (max_article - len titles))
        with (S (Z.to_nat (max_article - (len titles + 1)))) by lia.
      cbn [firstn].
      destruct (len titles + 1 =? max_article) eqn:E.
      * apply Z.eqb_eq in E.
        replace (Z.to_nat (max_article - (len titles + 1))) with 0%nat by lia.
        reflexivity.
      * apply Z.eqb_neq in E. rewrite IH by (rewrite len_app_one; lia).
        rewrite len_app_one, <- app_assoc. reflexivity.
    + destruct (len titles =? max_article) eqn:E; [apply Z.eqb_eq in E; lia|].
      now apply IH.
    + now apply IH.
Qed.

(** Under a cap that no length can equal, the loop runs to the end. *)
Lemma for_articles_uncapped (articles : list node) (key_words : list string)
    (max_article : Z) (titles : list string) :
  max_article < 0 ->
  for_articles articles key_words max_article titles
  = titles ++ flat_map (fun a => matching_title a key_words) articles.
Proof.
  intros Hneg. revert titles; induction articles as [|a rest IH]; intros titles.
  - cbn. now rewrite app_nil_r.
  - loop_step.
    + destruct (len (titles ++ [title]) =? max_article) eqn:E.
      * apply Z.eqb_eq in E. pose proof (len_nonneg (titles ++ [title])). lia.
      * rewrite IH, <- app_assoc. reflexivity.
    + destruct (len titles =? max_article) eqn:E.
      * apply Z.eqb_eq in E. pose proof (len_nonneg titles). lia.
      * apply IH.
    + apply IH.
Qed.

(** An article whose [get_title] raises leaves the loop as it found it. *)
Lemma for_articles_skip (before after : list node) (a : node)
    (key_words : list string) (max_article : Z) (titles : list string) :
  get_title a "h4" = None ->
  for_articles (before ++ a :: after) key_words max_article titles
  = for_articles (before ++ after) key_words max_article titles.
Proof.
  intros Hnone. revert titles.
  induction before as [|b before IH]; intros titles; cbn [app for_articles].
  - now rewrite Hnone.
  - destruct (get_title b "h4") as [title|]; [|apply IH].
    destruct (len _ =? max_article); [reflexivity | apply IH].
Qed.

(** Whatever the cap, the loop only ever adds titles that passed
    [contains_keywords]. *)
Lemma for_articles_sound (articles : list node) (key_words : list string)
    (max_article : Z) (titles : list string) (t : string) :
  In t (for_articles articles key_words max_article titles) ->
  In t titles \/ contains_keywords t key_words = true.
Proof.
  revert titles; induction articles as [|a rest IH]; intros titles;
    cbn [for_articles]; [now left|].
  destruct (get_title a "h4") as [title|]; [|apply IH].
  destruct (contains_keywords title key_words) eqn:Hmatch.
  - assert (Hstep : In t (titles ++ [title]) ->
                    In t titles \/ contains_keywords t key_words = true).
    { rewrite in_app_iff. intros [H | [<- | []]]; [now left | now right]. }
    destruct (len _ =? max_article); [exact Hstep|].
    intros H. destruct (IH _ H) as [H' | H']; [now apply Hstep | now right].
  - destruct (len _ =? max_article); [now left | apply IH].
Qed.

Lemma for_articles_no_keywords (articles : list node) (max_article : Z)
    (titles : list string) :
  for_articles articles [] max_article titles = titles.
Proof.
  induction articles as [|a rest IH]; cbn [for_articles]; [reflexivity|].
  destruct (get_title a "h4"); [|exact IH].
  cbn [contains_keywords existsb].
  destruct (len titles =? max_article); [reflexivity | exact IH].
Qed.

Lemma get_filtered_titles_capped (soup : node) (key_words : list string)
    (max_article : Z) :
  1 <= max_article ->
  get_filtered_titles soup key_words max_article
  = firstn (Z.to_nat max_article) (all_matching_titles soup key_words).
Proof.
  intros Hpos. unfold get_filtered_titles.
  rewrite for_articles_capped by (rewrite len_nil; lia).
  now rewrite len_nil, Z.sub_0_r.
Qed.

(* ------------------------------------------------------------------ *)
(** ** Dicts *)

(** Propositional steps, on a goal that is not about the collaborators. *)
Ltac taut := clear lower requests_get BeautifulSoup; tauto.

Lemma dict_keys_set_old {V} (k : string) (v : V) (d : Dict.dict V) :
  In k (Dict.keys d) -> Dict.keys (Dict.set k v d) = Dict.keys d.
Proof.
  unfold Dict.keys. induction d as [|[k' v'] d IH]; cbn; [intros []|].
  destruct (String.eqb_spec k' k) as [->|Hne]; cbn; [reflexivity|].
  intros [H|H]; [contradiction | now rewrite IH].
Qed.

Lemma dict_keys_set_new {V} (k : string) (v : V) (d : Dict.dict V) :
  ~ In k (Dict.keys d) -> Dict.keys (Dict.set k v d) = Dict.keys d ++ [k].
Proof.
  unfold Dict.keys. induction d as [|[k' v'] d IH]; cbn; [reflexivity|].
  destruct (String.eqb_spec k' k) as [->|Hne]; cbn; intros H.
  - exfalso. apply H. now left.
  - rewrite IH; [reflexivity | taut].
Qed.

Lemma dict_get_set_same {V} (k : string) (v : V) (d : Dict.dict V) :
  Dict.get k (Dict.set k v d) = Some v.
Proof.
  induction d as [|[k' v'] d IH]; cbn.
  - now rewrite String.eqb_refl.
  - destruct (String.eqb_spec k' k) as [->|Hne]; cbn.
    + now rewrite String.eqb_refl.
    + destruct (String.eqb_spec k' k); [contradiction | exact IH].
Qed.

Lemma dict_get_set_other {V} (k k' : string) (v : V) (d : Dict.dict V) :
  k <> k' -> Dict.get k' (Dict.set k v d) = Dict.get k' d.
Proof.
  intros Hne. induction d as [|[k0 v0] d IH]; cbn.
  - destruct (String.eqb_spec k k'); [contradiction | reflexivity].
  - destruct (String.eqb_spec k0 k) as [->|Hne0]; cbn.
    + destruct (String.eqb_spec k k'); [contradiction | reflexivity].
    + destruct (String.eqb_spec k0 k'); [reflexivity | exact IH].
Qed.

Section Comprehension.

Context {V : Type} (f : string -> V).

Lemma fill_cons (k0 : string) (rest : list string) (d : Dict.dict V) :
  Dict.fill f (k0 :: rest) d = Dict.fill f rest (Dict.set k0 (f k0) d).
Proof. reflexivity. Qed.

Lemma fill_keys (key_list : list string) (d : Dict.dict V) (k : string) :
  In k (Dict.keys (Dict.fill f key_list d))
  <-> In k (Dict.keys d) \/ In k key_list.
Proof.
  revert d; induction key_list as [|k0 rest IH]; intros d.
  - cbn [Dict.fill fold_left In]. taut.
  - rewrite fill_cons, IH. cbn [In].
    destruct (in_dec string_dec k0 (Dict.keys d)) as [Hin|Hout].
    + rewrite dict_keys_set_old by assumption.
      split; [taut | intros [H|[<-|H]]; taut].
    + rewrite dict_keys_set_new, in_app_iff by assumption. cbn [In]. taut.
Qed.

Lemma fill_NoDup (key_list : list string) (d : Dict.dict V) :
  NoDup (Dict.keys d) -> NoDup (Dict.keys (Dict.fill f key_list d)).
Proof.
  revert d; induction key_list as [|k0 rest IH]; intros d Hd;
    [exact Hd|].
  rewrite fill_cons.
  apply IH. destruct (in_dec string_dec k0 (Dict.keys d)) as [Hin|Hout].
  - now rewrite dict_keys_set_old.
  - rewrite dict_keys_set_new by assumption.
    apply NoDup_app; [exact Hd | repeat constructor; intros [] |].
    intros x Hx [<-|[]]. contradiction.
Qed.

Lemma fill_distinct (key_list : list string) (d : Dict.dict V) :
  NoDup (Dict.keys d ++ key_list) ->
  Dict.keys (Dict.fill f key_list d) = Dict.keys d ++ key_list.
Proof.
  revert d; induction key_list as [|k0 rest IH]; intros d Hd.
  - cbn [Dict.fill fold_left]. now rewrite app_nil_r.
  - rewrite fill_cons.
    assert (Hout : ~ In k0 (Dict.keys d)).
    { intros Hin. apply NoDup_remove_2 in Hd. apply Hd, in_or_app. now left. }
    rewrite IH; rewrite dict_keys_set_new by assumption.
    + now rewrite <- app_assoc.
    + now rewrite <- app_assoc.
Qed.

Lemma fill_get_out (key_list : list string) (d : Dict.dict V) (k : string) :
  ~ In k key_list -> Dict.get k (Dict.fill f key_list d) = Dict.get k d.
Proof.
  revert d; induction key_list as [|k0 rest IH]; intros d Hout;
    [reflexivity|].
  rewrite fill_cons, IH by (cbn in Hout; taut).
  apply dict_get_set_other. intros ->. apply Hout. now left.
Qed.

Lemma fill_get_in (key_list : list string) (d : Dict.dict V) (k : string) :
  In k key_list -> Dict.get k (Dict.fill f key_list d) = Some (f k).
Proof.
  revert d; induction key_list as [|k0 rest IH]; intros d; [intros []|].
  rewrite fill_cons. intros Hin.
  destruct (in_dec string_dec k rest) as [Hrest|Hrest]; [now apply IH|].
  destruct Hin as [->|Hin]; [|contradiction].
  rewrite fill_get_out by assumption. apply dict_get_set_same.
Qed.

Lemma comprehension_keys (key_list : list string) (k : string) :
  In k (Dict.keys (Dict.comprehension f key_list)) <-> In k key_list.
Proof.
  unfold Dict.comprehension. rewrite fill_keys. cbn. taut.
Qed.

Lemma comprehension_NoDup (key_list : list string) :
  NoDup (Dict.keys (Dict.comprehension f key_list)).
Proof. apply (fill_NoDup key_list []). constructor. Qed.

Lemma comprehension_distinct (key_list : list string) :
  NoDup key_list -> Dict.keys (Dict.comprehension f key_list) = key_list.
Proof. intros H. now apply (fill_distinct key_list []). Qed.

Lemma comprehension_get (key_list : list string) (k : string) :
  In k key_list -> Dict.get k (Dict.comprehension f key_list) = Some (f k).
Proof. apply fill_get_in. Qed.

End Comprehension.

(* ------------------------------------------------------------------ *)
(** ** The pipeline, when the page is fetched and parsed *)

Lemma scrape_and_analyze_ok (url markup : string) (soup : node)
    (key_words : list string) (max_article : Z) (tr : list event) :
  requests_get url = Ok markup ->
  BeautifulSoup markup = Ok soup ->
  let titles := get_filtered_titles soup key_words max_article in
  let word_count :=
    Dict.comprehension
      (fun key => sum (map (fun title => contains_keywords title [key]) titles))
      key_words in
  scrape_and_analyze url key_words max_article tr
  = (Ok (titles, word_count),
     tr ++ [ToExcel "article_titles.xlsx" ["Title"%string] titles;
            ShowBar (combine (Dict.keys word_count) (Dict.values word_count))
              "Keywords" "Number of Articles" "Article Counts by Keyword"]).
Proof.
  intros Hget Hparse titles word_count.
  unfold scrape_and_analyze, get_articles_soup, save_titles_to_excel,
    create_bar_chart, bind, lift, ret, emit.
  rewrite Hget, Hparse. fold titles. fold word_count.
  now rewrite <- app_assoc.
Qed.

(* ------------------------------------------------------------------ *)
(** ** The claims *)

(** C2 (amended): for every parsed tree, every keyword list and every
    max_article of at least 1, the filtered title list returned by
    [get_filtered_titles] is no longer than max_article. *)
Theorem filtered_length_within_positive_cap (soup : node)
    (key_words : list string) (max_article : Z) :
  1 <= max_article ->
  len (get_filtered_titles soup key_words max_article) <= max_article.
Proof.
  intros Hpos. rewrite get_filtered_titles_capped by assumption.
  unfold len. rewrite length_firstn. lia.
Qed.

(** C3: every title in the filtered output contains at least one keyword
    of the keyword list as a contiguous substring, for every tree, keyword
    list and max_article. *)
Theorem filtered_titles_contain_keyword (soup : node)
    (key_words : list string) (max_article : Z) (t : string) :
  In t (get_filtered_titles soup key_words max_article) ->
  exists k, In k key_words /\ substring_of k t.
Proof.
  intros Hin. apply for_articles_sound in Hin.
  destruct Hin as [[] | Hmatch]. now apply contains_keywords_spec.
Qed.

(** C4: the pipeline counts over the capped filtered list: the count of
    each keyword k is the number of titles of the list returned by
    [get_filtered_titles] that contain k.  In particular, with two article
    nodes titled "bank" and "bank bank", the keyword list ["bank"] and
    max_article = 1, the filtered list is ["bank"] and the counts are
    {"bank": 1}. *)
Theorem counts_are_over_capped_list (url markup : string) (soup : node)
    (key_words : list string) (max_article : Z) (tr : list event) :
  requests_get url = Ok markup ->
  BeautifulSoup markup = Ok soup ->
  exists word_count tr',
    scrape_and_analyze url key_words max_article tr
    = (Ok (get_filtered_titles soup key_words max_article, word_count), tr')
    /\ (forall k, In k key_words ->
          Dict.get k word_count
          = Some (titles_containing k
                    (get_filtered_titles soup key_words max_article)))
    /\ (forall a1 a2,
          find_all "article" soup = [a1; a2] ->
          get_title a1 "h4" = Some "bank"%string ->
          get_title a2 "h4" = Some "bank bank"%string ->
          key_words = ["bank"%string] -> max_article = 1 ->
          get_filtered_titles soup key_words max_article = ["bank"%string]
          /\ word_count = [("bank"%string, 1)]).
Proof.
  intros Hget Hparse.
  pose proof (scrape_and_analyze_ok url markup soup key_words max_article tr
                Hget Hparse) as Hrun.
  cbv zeta in Hrun. eexists. eexists. split; [exact Hrun|]. split.
  - intros k Hk. rewrite comprehension_get by assumption.
    now rewrite sum_contains.
  - intros a1 a2 Harts H1 H2 -> ->.
    assert (Htitles : get_filtered_titles soup ["bank"%string] 1
                      = ["bank"%string]).
    { unfold get_filtered_titles. rewrite Harts. cbn [for_articles].
      rewrite H1. reflexivity. }
    rewrite Htitles. split; reflexivity.
Qed.

(** C5 (amended): the keyword count mapping has exactly one entry per
    distinct input keyword, zero counts included: its keys are the input
    keywords without repetition, each key carries the count of that
    keyword, and the keys are the keyword list itself when the list has no
    duplicate.  A duplicated keyword is merged into its one entry. *)
Theorem one_entry_per_distinct_keyword (url markup : string) (soup : node)
    (key_words : list string) (max_article : Z) (tr : list event) :
  requests_get url = Ok markup ->
  BeautifulSoup markup = Ok soup ->
  exists titles word_count tr',
    scrape_and_analyze url key_words max_article tr
    = (Ok (titles, word_count), tr')
    /\ NoDup (Dict.keys word_count)
    /\ (forall k, In k (Dict.keys word_count) <-> In k key_words)
    /\ (forall k, In k key_words ->
          Dict.get k word_count = Some (titles_containing k titles))
    /\ (NoDup key_words -> Dict.keys word_count = key_words).
Proof.
  intros Hget Hparse.
  pose proof (scrape_and_analyze_ok url markup soup key_words max_article tr
                Hget Hparse) as Hrun.
  cbv zeta in Hrun. do 3 eexists. split; [exact Hrun|].
  split; [apply comprehension_NoDup|].
  split; [apply comprehension_keys|].
  split; [|apply comprehension_distinct].
  intros k Hk. rewrite comprehension_get by assumption.
  now rewrite sum_contains.
Qed.

(** C6: an article node with no h4 below it is skipped locally: its
    [get_title] fails, the failure is swallowed, and the result is the one
    the loop gives on the other article nodes alone.  In particular, with
    5 article nodes of which the third has no heading, the titles of nodes
    1, 2, 4, 5 come out in that order (each passing the keyword filter,
    under a cap of at least 4). *)
Theorem headingless_article_is_skipped (soup : node)
    (key_words : list string) (max_article : Z)
    (before after : list node) (a : node) :
  find_all "article" soup = before ++ a :: after ->
  find "h4" a = None ->
  get_title a "h4" = None
  /\ get_filtered_titles soup key_words max_article
     = for_articles (before ++ after) key_words max_article []
  /\ (forall a1 a2 a4 a5 t1 t2 t4 t5,
        before = [a1; a2] -> after = [a4; a5] ->
        get_title a1 "h4" = Some t1 -> get_title a2 "h4" = Some t2 ->
        get_title a4 "h4" = Some t4 -> get_title a5 "h4" = Some t5 ->
        forallb (fun t => contains_keywords t key_words) [t1; t2; t4; t5]
        = true ->
        4 <= max_article ->
        get_filtered_titles soup key_words max_article = [t1; t2; t4; t5]).
Proof.
  intros Harts Hfind.
  assert (Hnone : get_title a "h4" = None)
    by (unfold get_title; now rewrite Hfind).
  assert (Hskip : get_filtered_titles soup key_words max_article
                  = for_articles (before ++ after) key_words max_article []).
  { unfold get_filtered_titles. rewrite Harts. now apply for_articles_skip. }
  repeat split; try assumption.
  intros a1 a2 a4 a5 t1 t2 t4 t5 -> -> H1 H2 H4 H5 Hall Hcap.
  rewrite Hskip, for_articles_capped by (rewrite len_nil; lia).
  cbn [app flat_map]. unfold matching_title. rewrite H1, H2, H4, H5.
  cbn [forallb] in Hall. rewrite !andb_true_iff in Hall.
  destruct Hall as (-> & -> & -> & -> & _). cbn [app]. rewrite len_nil.
  replace (Z.to_nat (max_article - 0))
    with (S (S (S (S (Z.to_nat (max_article - 4)))))) by lia.
  cbn [firstn]. now rewrite firstn_nil.
Qed.

(** C7: with an empty keyword list the filtered title list is empty, for
    every tree and every max_article, and the pipeline returns the empty
    list and the empty count mapping. *)
Theorem empty_keyword_list_gives_empty_results (url markup : string)
    (soup : node) (max_article : Z) (tr : list event) :
  requests_get url = Ok markup ->
  BeautifulSoup markup = Ok soup ->
  get_filtered_titles soup [] max_article = []
  /\ scrape_and_analyze url [] max_article tr
     = (Ok ([], []),
        tr ++ [ToExcel "article_titles.xlsx" ["Title"%string] [];
               ShowBar [] "Keywords" "Number of Articles"
                 "Article Counts by Keyword"]).
Proof.
  intros Hget Hparse.
  assert (Hnil : get_filtered_titles soup [] max_article = [])
    by apply for_articles_no_keywords.
  split; [exact Hnil|].
  rewrite (scrape_and_analyze_ok url markup soup [] max_article tr Hget Hparse).
  rewrite Hnil. reflexivity.
Qed.

(** C8: the count the mapping gives to any input keyword is at most the
    length of the filtered title list (and is not negative). *)
Theorem count_at_most_filtered_length (url markup : string) (soup : node)
    (key_words : list string) (max_article : Z) (tr : list event) :
  requests_get url = Ok markup ->
  BeautifulSoup markup = Ok soup ->
  exists titles word_count tr',
    scrape_and_analyze url key_words max_article tr
    = (Ok (titles, word_count), tr')
    /\ forall k, In k key_words ->
         exists c, Dict.get k word_count = Some c /\ 0 <= c <= len titles.
Proof.
  intros Hget Hparse.
  pose proof (scrape_and_analyze_ok url markup soup key_words max_article tr
                Hget Hparse) as Hrun.
  cbv zeta in Hrun. do 3 eexists. split; [exact Hrun|].
  intros k Hk. eexists. split; [now apply comprehension_get|].
  rewrite sum_contains. apply titles_containing_bounds.
Qed.

(** C9: when the fetch raises, or the parse of the fetched markup raises,
    [scrape_and_analyze] raises the same exception and the trace is the
    one it started from: no spreadsheet written, no chart shown, no result
    returned. *)
Theorem fetch_or_parse_failure_aborts (url : string)
    (key_words : list string) (max_article : Z) (tr : list event) (e : exn) :
  requests_get url = Err e
  \/ (exists markup, requests_get url = Ok markup
                     /\ BeautifulSoup markup = Err e) ->
  scrape_and_analyze url key_words max_article tr = (Err e, tr).
Proof.
  unfold scrape_and_analyze, get_articles_soup, bind, lift.
  intros [Hget | [markup [Hget Hparse]]].
  - now rewrite Hget.
  - now rewrite Hget, Hparse.
Qed.

(** C10: under a negative max_article the cap never applies: the length
    of the result is never equal to it, and [get_filtered_titles] returns
    every matching title of the tree. *)
Theorem negative_cap_never_applies (soup : node) (key_words : list string)
    (max_article : Z) :
  max_article < 0 ->
  get_filtered_titles soup key_words max_article
  = all_matching_titles soup key_words.
Proof.
  intros Hneg. unfold get_filtered_titles.
  now rewrite for_articles_uncapped.
Qed.

(* ------------------------------------------------------------------ *)
(** ** Further properties of the code *)

Lemma str_append_assoc (a b c : string) :
  String.append (String.append a b) c = String.append a (String.append b c).
Proof. induction a as [|x a IH]; simpl; [reflexivity | now rewrite IH]. Qed.

Lemma starts_with_length (k t : string) :
  starts_with k t = true -> (String.length k <= String.length t)%nat.
Proof.
  revert t; induction k as [|a k IH]; intros [|b t]; simpl;
    try lia; try discriminate.
  rewrite andb_true_iff. intros [_ H]. apply IH in H. lia.
Qed.

Lemma str_in_length (k t : string) :
  str_in k t = true -> (String.length k <= String.length t)%nat.
Proof.
  induction t as [|b t IH]; cbn [str_in]; rewrite orb_true_iff.
  - intros [H|H]; [now apply starts_with_length | discriminate].
  - intros [H|H]; [now apply starts_with_length|].
    apply IH in H. simpl. lia.
Qed.

Lemma substring_of_trans (k t u : string) :
  substring_of k t -> substring_of t u -> substring_of k u.
Proof.
  intros (p1 & q1 & ->) (p2 & q2 & ->).
  exists (String.append p2 p1), (String.append q1 q2).
  now rewrite !str_append_assoc.
Qed.

Lemma contains_keywords_same (title : string) (K1 K2 : list string) :
  (forall k, In k K1 <-> In k K2) ->
  contains_keywords title K1 = contains_keywords title K2.
Proof.
  intros Hsame. apply eq_true_iff_eq. rewrite !contains_keywords_spec.
  split; intros (k & Hk & Hsub); exists k; split; try assumption;
    now apply Hsame.
Qed.

(** X1: [create_empty_dict] holds a key, with the value [None], exactly
    when the key is in the list it was given; any other key is absent. *)
Theorem create_empty_dict_lookup (key_list : list string) (k : string) :
  (Dict.get k (create_empty_dict key_list) = Some PyNone <-> In k key_list)
  /\ (Dict.get k (create_empty_dict key_list) = None <-> ~ In k key_list).
Proof.
  unfold create_empty_dict, Dict.comprehension.
  destruct (in_dec string_dec k key_list) as [Hin|Hout].
  - rewrite fill_get_in by assumption. split; split; easy.
  - rewrite fill_get_out by assumption. cbn. split; split; easy.
Qed.

(** X2: the keys of [create_empty_dict] are the keys of the list with no
    repetition, so the dict is never longer than the list. *)
Theorem create_empty_dict_keys (key_list : list string) :
  NoDup (Dict.keys (create_empty_dict key_list))
  /\ (forall k, In k (Dict.keys (create_empty_dict key_list))
                <-> In k key_list)
  /\ len (create_empty_dict key_list) <= len key_list.
Proof.
  unfold create_empty_dict.
  pose proof (comprehension_NoDup (fun _ => PyNone) key_list) as Hnodup.
  pose proof (comprehension_keys (fun _ => PyNone) key_list) as Hkeys.
  repeat split; try assumption; try apply Hkeys.
  unfold len. apply inj_le.
  replace (List.length (Dict.comprehension (fun _ => PyNone) key_list))
    with (List.length
            (Dict.keys (Dict.comprehension (fun _ => PyNone) key_list)))
    by apply length_map.
  apply NoDup_incl_length; [exact Hnodup|].
  intros k Hk. now apply Hkeys.
Qed.

(** X3: on a list of distinct keys [create_empty_dict] keeps the keys in
    the order of the list. *)
Theorem create_empty_dict_keeps_order (key_list : list string) :
  NoDup key_list -> Dict.keys (create_empty_dict key_list) = key_list.
Proof. apply comprehension_distinct. Qed.

(** X4: [contains_keywords] is [True] exactly when one of the keywords
    occurs in the string as a contiguous run of characters. *)
Theorem contains_keywords_iff_substring (item_searched : string)
    (items_searched_for : list string) :
  contains_keywords item_searched items_searched_for = true
  <-> exists keyword, In keyword items_searched_for
                      /\ substring_of keyword item_searched.
Proof. apply contains_keywords_spec. Qed.

(** X5: a string shorter than every keyword contains none of them. *)
Theorem contains_keywords_short_string (item_searched : string)
    (items_searched_for : list string) :
  (forall keyword, In keyword items_searched_for ->
     (String.length item_searched < String.length keyword)%nat) ->
  contains_keywords item_searched items_searched_for = false.
Proof.
  intros Hshort. apply not_true_is_false. unfold contains_keywords.
  rewrite existsb_exists. intros (k & Hk & Hin).
  apply str_in_length in Hin. specialize (Hshort k Hk). lia.
Qed.

(** X6: the empty keyword is in every string: a keyword list that holds
    [""] accepts every string, the empty one included. *)
Theorem contains_keywords_empty_keyword (item_searched : string)
    (items_searched_for : list string) :
  In EmptyString items_searched_for ->
  contains_keywords item_searched items_searched_for = true.
Proof.
  intros Hin. apply contains_keywords_spec.
  exists EmptyString. split; [exact Hin|].
  now exists EmptyString, item_searched.
Qed.

(** X7: more keywords never lose a match: what a keyword list accepts,
    every list that holds its keywords accepts, in any order and with any
    repetition. *)
Theorem contains_keywords_more_keywords (item_searched : string)
    (K1 K2 : list string) :
  (forall keyword, In keyword K1 -> In keyword K2) ->
  contains_keywords item_searched K1 = true ->
  contains_keywords item_searched K2 = true.
Proof.
  intros Hincl. rewrite !contains_keywords_spec.
  intros (k & Hk & Hsub). exists k. split; [now apply Hincl | exact Hsub].
Qed.

(** X8: text around a string never loses a match: what is accepted for a
    string is accepted for every string that contains it. *)
Theorem contains_keywords_longer_string (item_searched before after : string)
    (items_searched_for : list string) :
  contains_keywords item_searched items_searched_for = true ->
  contains_keywords
    (String.append before (String.append item_searched after))
    items_searched_for = true.
Proof.
  rewrite !contains_keywords_spec. intros (k & Hk & Hsub).
  exists k. split; [exact Hk|].
  apply (substring_of_trans k item_searched); [exact Hsub|].
  now exists before, after.
Qed.

(** *** The tree walk *)




Lemma find_none_iff (tag : string) (a : node) :
  find tag a = None
  <-> forall d, In d (descendants a) -> is_tag tag d = false.
Proof.
  unfold find, find_all. split.
  - intros Hnone d Hd. destruct (is_tag tag d) eqn:E; [|reflexivity].
    assert (Hin : In d (filter (is_tag tag) (descendants a)))
      by (apply filter_In; now split).
    destruct (filter (is_tag tag) (descendants a)); [destruct Hin|].
    discriminate Hnone.
  - intros Hall.
    destruct (filter (is_tag tag) (descendants a)) as [|h rest] eqn:E;
      [reflexivity|].
    assert (Hin : In h (filter (is_tag tag) (descendants a)))
      by (rewrite E; now left).
    apply filter_In in Hin. destruct Hin as [Hd Htag].
    rewrite (Hall h Hd) in Htag. discriminate Htag.
Qed.

Lemma get_title_none_iff (article : node) (tag : string) :
  get_title article tag = None
  <-> forall d, In d (descendants article) -> is_tag tag d = false.
Proof.
  rewrite <- find_none_iff. unfold get_title.
  destruct (find tag article); split; intros H; try discriminate H;
    reflexivity.
Qed.

(** X9: [get_title] raises exactly when no node below the article is a
    tag of the name asked for. *)
Theorem get_title_fails_iff_no_tag (article : node) (tag : string) :
  get_title article tag = None
  <-> forall d, In d (descendants article) -> is_tag tag d = false.
Proof. apply get_title_none_iff. Qed.



(** *** The filter *)

(** Once the list is longer than the cap, no length test holds and the
    loop runs to the end. *)
Lemma for_articles_past_cap (articles : list node) (key_words : list string)
    (max_article : Z) (titles : list string) :
  max_article < len titles ->
  for_articles articles key_words max_article titles
  = titles ++ flat_map (fun a => matching_title a key_words) articles.
Proof.
  revert titles; induction articles as [|a rest IH]; intros titles Hpast.
  - cbn. now rewrite app_nil_r.
  - loop_step.
    + destruct (len (titles ++ [title]) =? max_article) eqn:E.
      * apply Z.eqb_eq in E. rewrite len_app_one in E. lia.
      * rewrite IH by (rewrite len_app_one; lia).
        now rewrite <- app_assoc.
    + destruct (len titles =? max_article) eqn:E.
      * apply Z.eqb_eq in E. lia.
      * now apply IH.
    + now apply IH.
Qed.

Lemma for_articles_prefix (articles : list node) (key_words : list string)
    (max_article : Z) (titles : list string) :
  exists rest,
    titles ++ flat_map (fun a => matching_title a key_words) articles
    = for_articles articles key_words max_article titles ++ rest.
Proof.
  revert titles; induction articles as [|a arts IH]; intros titles.
  - exists []. reflexivity.
  - loop_step.
    + destruct (len (titles ++ [title]) =? max_article).
      * eexists. now rewrite app_assoc.
      * destruct (IH (titles ++ [title])) as [rest Hrest].
        exists rest. rewrite <- Hrest. now rewrite <- app_assoc.
    + destruct (len titles =? max_article); [|apply IH].
      now eexists.
    + apply IH.
Qed.

Lemma for_articles_from (articles : list node) (key_words : list string)
    (max_article : Z) (titles : list string) (t : string) :
  In t (for_articles articles key_words max_article titles) ->
  In t titles
  \/ exists a, In a articles /\ get_title a "h4" = Some t.
Proof.
  revert titles; induction articles as [|a rest IH]; intros titles;
    cbn [for_articles]; [now left|].
  assert (Hrest : forall titles',
             In t (for_articles rest key_words max_article titles') ->
             (In t titles' ->
              In t titles
              \/ exists a', In a' (a :: rest) /\ get_title a' "h4" = Some t) ->
             In t titles
             \/ exists a', In a' (a :: rest) /\ get_title a' "h4" = Some t).
  { intros titles' Hin Hold.
    destruct (IH _ Hin) as [H | (a' & Ha' & Ht)]; [now apply Hold|].
    right. exists a'. split; [now right | exact Ht]. }
  destruct (get_title a "h4") as [title|] eqn:Htitle.
  - assert (Hstep : In t (titles ++ [title]) ->
               In t titles
               \/ exists a', In a' (a :: rest) /\ get_title a' "h4" = Some t).
    { rewrite in_app_iff. intros [H | [<- | []]]; [now left|].
      right. exists a. split; [now left | exact Htitle]. }
    destruct (contains_keywords title key_words).
    + destruct (len _ =? max_article); [exact Hstep|].
      intros Hin. exact (Hrest _ Hin Hstep).
    + destruct (len _ =? max_article); [now left|].
      intros Hin. apply (Hrest _ Hin). now left.
  - intros Hin. apply (Hrest _ Hin). now left.
Qed.

Lemma for_articles_no_heading (articles : list node)
    (key_words : list string) (max_article : Z) (titles : list string) :
  (forall a, In a articles -> get_title a "h4" = None) ->
  for_articles articles key_words max_article titles = titles.
Proof.
  induction articles as [|a rest IH]; intros Hall; cbn [for_articles];
    [reflexivity|].
  rewrite (Hall a) by now left.
  apply IH. intros a' Ha'. apply Hall. now right.
Qed.

Lemma for_articles_same_keywords (articles : list node)
    (K1 K2 : list string) (max_article : Z) (titles : list string) :
  (forall k, In k K1 <-> In k K2) ->
  for_articles articles K1 max_article titles
  = for_articles articles K2 max_article titles.
Proof.
  intros Hsame. revert titles.
  induction articles as [|a rest IH]; intros titles; cbn [for_articles];
    [reflexivity|].
  destruct (get_title a "h4") as [title|]; [|apply IH].
  rewrite (contains_keywords_same title K1 K2 Hsame).
  destruct (contains_keywords title K2);
    (destruct (len _ =? max_article); [reflexivity | apply IH]).
Qed.

(** X12: under a cap of at least 1, [get_filtered_titles] returns the
    first max_article matching titles of the page, in document order. *)
Theorem positive_cap_keeps_first_matches (soup : node)
    (key_words : list string) (max_article : Z) :
  1 <= max_article ->
  get_filtered_titles soup key_words max_article
  = firstn (Z.to_nat max_article) (all_matching_titles soup key_words).
Proof. apply get_filtered_titles_capped. Qed.

(** X13: under a cap of at least 1, the number of titles returned is the
    smaller of the cap and the number of matching titles of the page. *)
Theorem filtered_length_is_min (soup : node) (key_words : list string)
    (max_article : Z) :
  1 <= max_article ->
  len (get_filtered_titles soup key_words max_article)
  = Z.min max_article (len (all_matching_titles soup key_words)).
Proof.
  intros Hpos. rewrite get_filtered_titles_capped by assumption.
  unfold len. rewrite length_firstn. lia.
Qed.

(** X14: a cap of at least 1 that the page does not reach changes
    nothing: every matching title is returned. *)
Theorem cap_not_reached_returns_all (soup : node) (key_words : list string)
    (max_article : Z) :
  1 <= max_article ->
  len (all_matching_titles soup key_words) <= max_article ->
  get_filtered_titles soup key_words max_article
  = all_matching_titles soup key_words.
Proof.
  intros Hpos Hlen. rewrite get_filtered_titles_capped by assumption.
  apply firstn_all2. unfold len in Hlen. lia.
Qed.

(** X15: whatever the cap (zero and negative ones too), the titles
    returned are an initial part of the matching titles of the page: no
    title is made up, reordered or skipped over. *)
Theorem filtered_titles_are_a_prefix (soup : node) (key_words : list string)
    (max_article : Z) :
  exists rest,
    all_matching_titles soup key_words
    = get_filtered_titles soup key_words max_article ++ rest.
Proof.
  exact (for_articles_prefix (find_all "article" soup) key_words
           max_article []).
Qed.

(** X16: raising a cap of at least 1 only adds titles at the end: the
    result under the smaller cap is the start of the result under the
    larger one. *)
Theorem larger_cap_extends_result (soup : node) (key_words : list string)
    (small large : Z) :
  1 <= small -> small <= large ->
  get_filtered_titles soup key_words small
  = firstn (Z.to_nat small) (get_filtered_titles soup key_words large).
Proof.
  intros Hpos Hle. rewrite !get_filtered_titles_capped by lia.
  rewrite firstn_firstn. f_equal. lia.
Qed.

(** X17: at max_article = 0 the length test can only hold while the list
    is still empty: the result is the empty list, or else every matching
    title of the page. *)
Theorem zero_cap_all_or_nothing (soup : node) (key_words : list string) :
  get_filtered_titles soup key_words 0 = []
  \/ get_filtered_titles soup key_words 0
     = all_matching_titles soup key_words.
Proof.
  unfold get_filtered_titles, all_matching_titles.
  induction (find_all "article" soup) as [|a rest IH]; [now left|].
  loop_step.
  - right. cbn [app]. change (len [title] =? 0) with false. cbv iota.
    now rewrite for_articles_past_cap.
  - now left.
  - exact IH.
Qed.

(** X18: every title returned is the title [get_title] gives for some
    article node of the page. *)
Theorem filtered_title_has_an_article (soup : node)
    (key_words : list string) (max_article : Z) (t : string) :
  In t (get_filtered_titles soup key_words max_article) ->
  exists article,
    In article (find_all "article" soup)
    /\ get_title article "h4" = Some t.
Proof.
  intros Hin. apply for_articles_from in Hin.
  destruct Hin as [[] | H]. exact H.
Qed.

(** X19: a page none of whose articles has a heading (a page with no
    article at all, for one) gives the empty list, for every keyword list
    and every cap. *)
Theorem no_heading_no_title (soup : node) (key_words : list string)
    (max_article : Z) :
  (forall article, In article (find_all "article" soup) ->
     find "h4" article = None) ->
  get_filtered_titles soup key_words max_article = [].
Proof.
  intros Hall. apply for_articles_no_heading.
  intros a Ha. unfold get_title. now rewrite (Hall a Ha).
Qed.

(** X20: the titles returned depend on which keywords are given, not on
    their order or on how often each is listed. *)
Theorem keyword_order_is_irrelevant (soup : node) (K1 K2 : list string)
    (max_article : Z) :
  (forall k, In k K1 <-> In k K2) ->
  get_filtered_titles soup K1 max_article
  = get_filtered_titles soup K2 max_article.
Proof. intros Hsame. now apply for_articles_same_keywords. Qed.

(** X21: once a cap of at least 1 is reached the loop breaks: two pages
    with the same article nodes up to that point give the same titles,
    whatever comes after. *)
Theorem articles_after_cutoff_are_ignored (soup1 soup2 : node)
    (seen later1 later2 : list node) (key_words : list string)
    (max_article : Z) :
  find_all "article" soup1 = seen ++ later1 ->
  find_all "article" soup2 = seen ++ later2 ->
  1 <= max_article ->
  max_article <= len (flat_map (fun a => matching_title a key_words) seen) ->
  get_filtered_titles soup1 key_words max_article
  = get_filtered_titles soup2 key_words max_article.
Proof.
  intros H1 H2 Hpos Hreach. unfold get_filtered_titles. rewrite H1, H2.
  assert (Hcut : forall later,
             for_articles (seen ++ later) key_words max_article []
             = for_articles seen key_words max_article []).
  { intros later.
    rewrite !for_articles_capped by (rewrite len_nil; lia).
    rewrite len_nil, Z.sub_0_r, flat_map_app. cbn [app].
    rewrite firstn_app.
    replace (Z.to_nat max_article
             - List.length
                 (flat_map (fun a => matching_title a key_words) seen))%nat
      with 0%nat by (unfold len in Hreach; lia).
    cbn [firstn]. apply app_nil_r. }
  now rewrite !Hcut.
Qed.

(** *** The writes and the counts *)


Lemma set_values_follow_keys {V} (f : string -> V) (k : string)
    (d : Dict.dict V) :
  Dict.values d = map f (Dict.keys d) ->
  Dict.values (Dict.set k (f k) d) = map f (Dict.keys (Dict.set k (f k) d)).
Proof.
  unfold Dict.keys, Dict.values.
  induction d as [|[k' v'] d IH]; cbn; [reflexivity|].
  intros [= Hv Hd]. destruct (String.eqb_spec k' k) as [->|Hne]; cbn.
  - now rewrite Hd.
  - now rewrite Hv, IH.
Qed.

Lemma fill_values_follow_keys {V} (f : string -> V) (key_list : list string)
    (d : Dict.dict V) :
  Dict.values d = map f (Dict.keys d) ->
  Dict.values (Dict.fill f key_list d)
  = map f (Dict.keys (Dict.fill f key_list d)).
Proof.
  revert d; induction key_list as [|k rest IH]; intros d Hd; [exact Hd|].
  rewrite fill_cons. apply IH. now apply set_values_follow_keys.
Qed.

Lemma total_map_add {A} (f g : A -> Z) (l : list A) :
  total (map (fun x => f x + g x) l) = total (map f l) + total (map g l).
Proof.
  unfold total. induction l as [|x l IH]; cbn [map fold_right]; lia.
Qed.

Lemma total_hits (t : string) (keys : list string) :
  0 <= total (map (fun k => if str_in k t then 1 else 0) keys)
  /\ ((exists k, In k keys /\ str_in k t = true) ->
      1 <= total (map (fun k => if str_in k t then 1 else 0) keys)).
Proof.
  unfold total.
  induction keys as [|k keys [IH0 IH1]]; cbn [map fold_right].
  - split; [lia | intros (k & [] & _)].
  - split; [destruct (str_in k t); lia|].
    intros (k' & [<- | Hk'] & Hin).
    + rewrite Hin. lia.
    + assert (1 <= fold_right Z.add 0
                     (map (fun k => if str_in k t then 1 else 0) keys))
        by (apply IH1; now exists k').
      destruct (str_in k t); lia.
Qed.

Lemma titles_containing_cons (k t : string) (titles : list string) :
  titles_containing k (t :: titles)
  = (if str_in k t then 1 else 0) + titles_containing k titles.
Proof.
  unfold titles_containing, len. cbn [filter].
  destruct (str_in k t); cbn [List.length]; lia.
Qed.

Lemma total_counts_cover (keys titles : list string) :
  (forall t, In t titles -> exists k, In k keys /\ str_in k t = true) ->
  len titles <= total (map (fun k => titles_containing k titles) keys).
Proof.
  induction titles as [|t titles IH]; intros Hall.
  - rewrite len_nil. clear Hall. unfold total.
    induction keys as [|k keys IHk]; cbn [map fold_right]; [lia|].
    pose proof (titles_containing_bounds k []). lia.
  - rewrite (map_ext _ (fun k => (if str_in k t then 1 else 0)
                                 + titles_containing k titles))
      by (intros k; apply titles_containing_cons).
    rewrite total_map_add.
    assert (Hhit : 1 <= total (map (fun k => if str_in k t then 1 else 0)
                                 keys))
      by (apply total_hits, Hall; now left).
    assert (Hrest : len titles
                    <= total (map (fun k => titles_containing k titles) keys))
      by (apply IH; intros t' Ht'; apply Hall; now right).
    unfold len in *. cbn [List.length]. lia.
Qed.



(** X24: every returned title is counted at least once: the counts of
    the mapping add up to at least the number of returned titles. *)
Theorem counts_add_up_to_titles (url markup : string) (soup : node)
    (key_words : list string) (max_article : Z) (tr : list event) :
  requests_get url = Ok markup ->
  BeautifulSoup markup = Ok soup ->
  exists titles word_count tr',
    scrape_and_analyze url key_words max_article tr
    = (Ok (titles, word_count), tr')
    /\ len titles <= total (Dict.values word_count).
Proof.
  intros Hget Hparse.
  pose proof (scrape_and_analyze_ok url markup soup key_words max_article tr
                Hget Hparse) as Hrun.
  cbv zeta in Hrun. do 3 eexists. split; [exact Hrun|].
  unfold Dict.comprehension.
  rewrite fill_values_follow_keys by reflexivity.
  rewrite (map_ext _ (fun k => titles_containing k
                        (get_filtered_titles soup key_words max_article)))
    by (intros k; apply sum_contains).
  apply total_counts_cover. intros t Ht.
  apply for_articles_sound in Ht. destruct Ht as [[] | Hmatch].
  unfold contains_keywords in Hmatch. apply existsb_exists in Hmatch.
  destruct Hmatch as (k & Hk & Hin). exists k. split; [|exact Hin].
  apply fill_keys. now right.
Qed.

End Scraper.

(* ------------------------------------------------------------------ *)
(** ** Concrete runs *)

Local Open Scope string_scope.

(** C1: at max_article = 0 the length test comes after the append, so a
    first article that matches makes the list one long and the test
    [len(titles) == 0] never holds again: the page with the one headline
    "Bank" and the keyword "bank" gives the title back, with count 1. *)
Lemma zero_cap_returns_first_match :
  get_filtered_titles Sample.lower Sample.one_bank ["bank"] 0 = ["bank"]
  /\ fst (scrape_and_analyze Sample.lower Sample.fetch_ok
            (Sample.parse_as Sample.one_bank) Sample.url ["bank"] 0 [])
     = Ok (["bank"], [("bank", 1)]).
Proof. split; reflexivity. Qed.

(** C2 fails as stated: a negative max_article is below every length, and
    at max_article = 0 a first matching article is returned. *)
Lemma filtered_length_exceeds_cap :
  ~ (len (get_filtered_titles Sample.lower (Sample.page []) ["bank"] (-1))
     <= -1)
  /\ ~ (len (get_filtered_titles Sample.lower Sample.one_bank ["bank"] 0)
        <= 0).
Proof. split; vm_compute; intros H; apply H; reflexivity. Qed.

Lemma filtered_length_within_positive_cap_witness :
  1 <= 1
  /\ len (get_filtered_titles Sample.lower Sample.two_banks ["bank"] 1) <= 1.
Proof.
  split; [lia|].
  apply (filtered_length_within_positive_cap
           Sample.lower Sample.two_banks ["bank"] 1).
  lia.
Defined.

Lemma filtered_titles_contain_keyword_witness :
  In "bank crisis today"
    (get_filtered_titles Sample.lower Sample.three_headlines
       ["bank"; "economy"] 10)
  /\ exists k, In k ["bank"; "economy"] /\ substring_of k "bank crisis today".
Proof.
  assert (H : In "bank crisis today"
                (get_filtered_titles Sample.lower Sample.three_headlines
                   ["bank"; "economy"] 10))
    by (vm_compute; left; reflexivity).
  split; [exact H|].
  exact (filtered_titles_contain_keyword Sample.lower Sample.three_headlines
           ["bank"; "economy"] 10 "bank crisis today" H).
Defined.

Lemma counts_are_over_capped_list_witness :
  exists word_count tr',
    scrape_and_analyze Sample.lower Sample.fetch_ok
      (Sample.parse_as Sample.two_banks) Sample.url ["bank"] 1 []
    = (Ok (["bank"], word_count), tr')
    /\ word_count = [("bank", 1)].
Proof.
  destruct (counts_are_over_capped_list Sample.lower Sample.fetch_ok
              (Sample.parse_as Sample.two_banks) Sample.url Sample.markup
              Sample.two_banks ["bank"] 1 [] eq_refl eq_refl)
    as (word_count & tr' & Hrun & _ & Hbank).
  destruct (Hbank (Sample.article "bank") (Sample.article "bank bank")
              eq_refl eq_refl eq_refl eq_refl eq_refl) as [Htitles Hcount].
  exists word_count, tr'. rewrite Htitles in Hrun. split; assumption.
Defined.

(** C5 fails as stated: the keyword list ["bank"; "bank"] has two
    keywords and the mapping one entry. *)
Lemma duplicate_keywords_are_merged :
  exists titles word_count tr',
    scrape_and_analyze Sample.lower Sample.fetch_ok
      (Sample.parse_as Sample.two_banks) Sample.url ["bank"; "bank"] 50 []
    = (Ok (titles, word_count), tr')
    /\ word_count = [("bank", 2)]
    /\ List.length word_count <> List.length ["bank"; "bank"].
Proof.
  do 3 eexists. split; [cbv; reflexivity|]. split; [reflexivity|].
  cbn. discriminate.
Qed.

Lemma one_entry_per_distinct_keyword_witness :
  exists titles word_count tr',
    scrape_and_analyze Sample.lower Sample.fetch_ok
      (Sample.parse_as Sample.three_headlines) Sample.url
      ["bank"; "crisis"; "bank"; "sports"; "rates"] 10 []
    = (Ok (titles, word_count), tr')
    /\ NoDup (Dict.keys word_count)
    /\ (forall k, In k (Dict.keys word_count)
                  <-> In k ["bank"; "crisis"; "bank"; "sports"; "rates"]).
Proof.
  destruct (one_entry_per_distinct_keyword Sample.lower Sample.fetch_ok
              (Sample.parse_as Sample.three_headlines) Sample.url
              Sample.markup Sample.three_headlines
              ["bank"; "crisis"; "bank"; "sports"; "rates"] 10 []
              eq_refl eq_refl)
    as (titles & word_count & tr' & Hrun & Hnodup & Hkeys & _).
  exists titles, word_count, tr'. repeat split; try assumption; apply Hkeys.
Defined.

Lemma headingless_article_is_skipped_witness :
  find "h4" Sample.bare_article = None
  /\ get_filtered_titles Sample.lower Sample.five_articles ["bank"] 50
     = ["bank run"; "bank holiday"; "central bank"; "bank crisis"].
Proof.
  split; [reflexivity|].
  destruct (headingless_article_is_skipped Sample.lower Sample.five_articles
              ["bank"] 50
              [Sample.article "Bank run"; Sample.article "Bank holiday"]
              [Sample.article "Central bank"; Sample.article "Bank crisis"]
              Sample.bare_article eq_refl eq_refl) as (_ & _ & Hfive).
  apply (Hfive (Sample.article "Bank run") (Sample.article "Bank holiday")
           (Sample.article "Central bank") (Sample.article "Bank crisis"));
    try reflexivity.
  lia.
Defined.

Lemma empty_keyword_list_gives_empty_results_witness :
  get_filtered_titles Sample.lower Sample.three_headlines [] 10 = []
  /\ fst (scrape_and_analyze Sample.lower Sample.fetch_ok
            (Sample.parse_as Sample.three_headlines) Sample.url [] 10 [])
     = Ok ([], []).
Proof.
  destruct (empty_keyword_list_gives_empty_results Sample.lower
              Sample.fetch_ok (Sample.parse_as Sample.three_headlines)
              Sample.url Sample.markup Sample.three_headlines 10 []
              eq_refl eq_refl) as [Htitles Hrun].
  split; [exact Htitles | now rewrite Hrun].
Defined.

Lemma count_at_most_filtered_length_witness :
  exists titles word_count tr',
    scrape_and_analyze Sample.lower Sample.fetch_ok
      (Sample.parse_as Sample.three_headlines) Sample.url
      ["bank"; "economy"] 10 []
    = (Ok (titles, word_count), tr')
    /\ exists c, Dict.get "economy" word_count = Some c
                 /\ 0 <= c <= len titles.
Proof.
  destruct (count_at_most_filtered_length Sample.lower Sample.fetch_ok
              (Sample.parse_as Sample.three_headlines) Sample.url
              Sample.markup Sample.three_headlines ["bank"; "economy"] 10 []
              eq_refl eq_refl)
    as (titles & word_count & tr' & Hrun & Hbound).
  exists titles, word_count, tr'. split; [exact Hrun|].
  apply Hbound. right. left. reflexivity.
Defined.

Lemma fetch_or_parse_failure_aborts_witness :
  scrape_and_analyze Sample.lower Sample.fetch_down
    (Sample.parse_as Sample.three_headlines) Sample.url ["bank"] 10 []
  = (Err (FetchError "connection refused"), [])
  /\ scrape_and_analyze Sample.lower Sample.fetch_ok Sample.parse_fails
       Sample.url ["bank"] 10 []
     = (Err (ParseError "bad markup"), []).
Proof.
  split.
  - apply (fetch_or_parse_failure_aborts Sample.lower Sample.fetch_down
             (Sample.parse_as Sample.three_headlines)).
    left. reflexivity.
  - apply (fetch_or_parse_failure_aborts Sample.lower Sample.fetch_ok
             Sample.parse_fails).
    right. exists Sample.markup. split; reflexivity.
Defined.

Lemma negative_cap_never_applies_witness :
  -1 < 0
  /\ get_filtered_titles Sample.lower Sample.five_articles ["bank"] (-1)
     = all_matching_titles Sample.lower Sample.five_articles ["bank"].
Proof.
  split; [lia|].
  apply (negative_cap_never_applies Sample.lower Sample.five_articles
           ["bank"] (-1)).
  lia.
Defined.

(* ------------------------------------------------------------------ *)
(** ** Concrete runs of the further properties *)

Ltac distinct_strings :=
  repeat (constructor; [cbn; intuition discriminate|]); constructor.

Lemma create_empty_dict_keeps_order_witness :
  NoDup ["bank"; "crisis"; "economy"]
  /\ Dict.keys (create_empty_dict ["bank"; "crisis"; "economy"])
     = ["bank"; "crisis"; "economy"].
Proof.
  assert (H : NoDup ["bank"; "crisis"; "economy"]) by distinct_strings.
  split; [exact H|].
  exact (create_empty_dict_keeps_order ["bank"; "crisis"; "economy"] H).
Defined.

Lemma contains_keywords_short_string_witness :
  contains_keywords "oil" ["bank"; "crisis"] = false.
Proof.
  apply (contains_keywords_short_string "oil" ["bank"; "crisis"]).
  intros keyword [<- | [<- | []]]; cbn; lia.
Defined.

Lemma contains_keywords_empty_keyword_witness :
  In "" ["bank"; ""] /\ contains_keywords "sports update" ["bank"; ""] = true.
Proof.
  assert (H : In "" ["bank"; ""]) by (right; left; reflexivity).
  split; [exact H|].
  exact (contains_keywords_empty_keyword "sports update" ["bank"; ""] H).
Defined.

Lemma contains_keywords_more_keywords_witness :
  contains_keywords "bank run" ["bank"] = true
  /\ contains_keywords "bank run" ["economy"; "bank"; "bank"] = true.
Proof.
  split; [reflexivity|].
  apply (contains_keywords_more_keywords "bank run" ["bank"]
           ["economy"; "bank"; "bank"]).
  - intros keyword [<- | []]. right. left. reflexivity.
  - reflexivity.
Defined.

Lemma contains_keywords_longer_string_witness :
  contains_keywords "bank" ["bank"; "economy"] = true
  /\ contains_keywords "central bank news" ["bank"; "economy"] = true.
Proof.
  split; [reflexivity|].
  apply (contains_keywords_longer_string "bank" "central " " news"
           ["bank"; "economy"]).
  reflexivity.
Defined.


Lemma positive_cap_keeps_first_matches_witness :
  1 <= 2
  /\ get_filtered_titles Sample.lower Sample.five_articles ["bank"] 2
     = firstn 2 (all_matching_titles Sample.lower Sample.five_articles
                   ["bank"]).
Proof.
  split; [lia|].
  apply (positive_cap_keeps_first_matches Sample.lower Sample.five_articles
           ["bank"] 2).
  lia.
Defined.

Lemma filtered_length_is_min_witness :
  1 <= 10
  /\ len (get_filtered_titles Sample.lower Sample.five_articles ["bank"] 10)
     = Z.min 10
         (len (all_matching_titles Sample.lower Sample.five_articles
                 ["bank"])).
Proof.
  split; [lia|].
  apply (filtered_length_is_min Sample.lower Sample.five_articles
           ["bank"] 10).
  lia.
Defined.

Lemma cap_not_reached_returns_all_witness :
  len (all_matching_titles Sample.lower Sample.three_headlines
         ["bank"; "economy"]) <= 10
  /\ get_filtered_titles Sample.lower Sample.three_headlines
       ["bank"; "economy"] 10
     = all_matching_titles Sample.lower Sample.three_headlines
         ["bank"; "economy"].
Proof.
  assert (H : len (all_matching_titles Sample.lower Sample.three_headlines
                     ["bank"; "economy"]) <= 10)
    by (vm_compute; discriminate).
  split; [exact H|].
  apply (cap_not_reached_returns_all Sample.lower Sample.three_headlines
           ["bank"; "economy"] 10); [lia | exact H].
Defined.

Lemma larger_cap_extends_result_witness :
  get_filtered_titles Sample.lower Sample.five_articles ["bank"] 2
  = firstn 2
      (get_filtered_titles Sample.lower Sample.five_articles ["bank"] 3).
Proof.
  apply (larger_cap_extends_result Sample.lower Sample.five_articles
           ["bank"] 2 3); lia.
Defined.

Lemma filtered_title_has_an_article_witness :
  exists article,
    In article (find_all "article" Sample.five_articles)
    /\ get_title Sample.lower article "h4" = Some "central bank".
Proof.
  apply (filtered_title_has_an_article Sample.lower Sample.five_articles
           ["bank"] 50 "central bank").
  vm_compute. right. right. left. reflexivity.
Defined.

Lemma no_heading_no_title_witness :
  get_filtered_titles Sample.lower
    (Sample.page [Sample.bare_article; Sample.bare_article]) ["story"] 0
  = [].
Proof.
  apply (no_heading_no_title Sample.lower
           (Sample.page [Sample.bare_article; Sample.bare_article])
           ["story"] 0).
  intros article [<- | [<- | []]]; reflexivity.
Defined.

Lemma keyword_order_is_irrelevant_witness :
  get_filtered_titles Sample.lower Sample.three_headlines
    ["bank"; "economy"] 1
  = get_filtered_titles Sample.lower Sample.three_headlines
      ["economy"; "bank"; "economy"] 1.
Proof.
  apply (keyword_order_is_irrelevant Sample.lower Sample.three_headlines
           ["bank"; "economy"] ["economy"; "bank"; "economy"] 1).
  intros k. cbn. intuition.
Defined.

Lemma articles_after_cutoff_are_ignored_witness :
  get_filtered_titles Sample.lower Sample.two_banks ["bank"] 1
  = get_filtered_titles Sample.lower
      (Sample.page [Sample.article "bank"; Sample.bare_article;
                    Sample.article "Economy"]) ["bank"] 1.
Proof.
  apply (articles_after_cutoff_are_ignored Sample.lower Sample.two_banks
           (Sample.page [Sample.article "bank"; Sample.bare_article;
                         Sample.article "Economy"])
           [Sample.article "bank"] [Sample.article "bank bank"]
           [Sample.bare_article; Sample.article "Economy"] ["bank"] 1).
  - reflexivity.
  - reflexivity.
  - lia.
  - vm_compute. discriminate.
Defined.


Lemma counts_add_up_to_titles_witness :
  exists titles word_count tr',
    scrape_and_analyze Sample.lower Sample.fetch_ok
      (Sample.parse_as Sample.three_headlines) Sample.url
      ["bank"; "crisis"; "economy"] 10 []
    = (Ok (titles, word_count), tr')
    /\ len titles <= total (Dict.values word_count).
Proof.
  exact (counts_add_up_to_titles Sample.lower Sample.fetch_ok
           (Sample.parse_as Sample.three_headlines) Sample.url Sample.markup
           Sample.three_headlines ["bank"; "crisis"; "economy"] 10 []
           eq_refl eq_refl).
Defined.
